(** * Beam angles of a Nortek AD2CP in Janus configuration

    A shallow embedding of the notebook [AD2CP-angles.ipynb]: the
    function [angle_from_vertical] and the calls the notebook makes,
    with the properties its specification states.

    Number model.  The notebook computes on [numpy.float64].  Here a
    finite float is a real number ([R], exact arithmetic, the functions
    [cos] and [acos] of the Standard Library) and numpy's not-a-number,
    the result of [np.arccos] outside [-1, 1], is [None].  Every
    statement below is therefore about the exact real value of the
    expressions of the source; rounding of the binary format is not
    part of the model.  Identities that hold in exact arithmetic only
    (for instance [acos (cos x) = x]) serve as lemmas for ranges,
    tolerances and enclosures; where an exact value is stated, the
    tolerance stated beside it is what carries over to the binary
    format. *)

From Stdlib Require Import Reals Lra Lia ZArith List String Ascii.
Import ListNotations.

Local Open Scope R_scope.

(** ** The part of numpy the notebook uses *)

(** A float as the model has it: [Some x] is the finite value [x],
    [None] is nan. *)
Definition npfloat : Type := option R.

Module np.

(** [np.deg2rad(x)] is [x * pi / 180]. *)
Definition deg2rad (x : R) : R := x * (PI / 180).

(** [np.rad2deg(x)] is [x * 180 / pi]; nan stays nan. *)
Definition rad2deg (x : npfloat) : npfloat :=
  option_map (fun r => r * (180 / PI)) x.

Definition cos (x : R) : R := Rtrigo_def.cos x.

(** [np.arccos] gives nan (with a warning, no exception) outside
    [-1, 1]. *)
Definition arccos (x : R) : npfloat :=
  if Rle_dec (-1) x
  then if Rle_dec x 1 then Some (acos x) else None
  else None.

End np.

(** ** Text of a float under the format [.3f] *)

Definition newline : string := String (ascii_of_nat 10) EmptyString.

(** Nearest integer, ties to the even one, as Python's formatting
    rounds. *)
Definition round_half_even (x : R) : Z :=
  let f := Int_part x in
  let r := x - IZR f in
  if Rlt_dec r (1 / 2) then f
  else if Rlt_dec (1 / 2) r then (f + 1)%Z
  else if Z.even f then f else (f + 1)%Z.

Definition digit (d : Z) : ascii := ascii_of_nat (48 + Z.to_nat d).

(** Decimal digits of a natural number, most significant first; the
    fuel bounds the number of digits. *)
Fixpoint digits_fuel (fuel : nat) (n : Z) (acc : string) : string :=
  match fuel with
  | O => acc
  | S fuel' =>
      let acc' := String (digit (n mod 10)) acc in
      if (n <? 10)%Z then acc' else digits_fuel fuel' (n / 10) acc'
  end.

Definition decimal (n : Z) : string :=
  digits_fuel (S (Z.to_nat (Z.log2 n))) n EmptyString.

(** [thousandths n] writes the non-negative count [n] of thousandths
    with three digits after the point. *)
Definition thousandths (n : Z) : string :=
  let q := (n / 1000)%Z in
  let r := (n mod 1000)%Z in
  decimal q ++ "." ++
  String (digit (r / 100))
    (String (digit (r / 10 mod 10))
       (String (digit (r mod 10)) EmptyString)).

(** [f"{x:.3f}"]. *)
Definition format_3f (x : npfloat) : string :=
  match x with
  | None => "nan"
  | Some r =>
      let body := thousandths (round_half_even (Rabs r * 1000)) in
      if Rlt_dec r 0 then "-" ++ body else body
  end.

(** ** The function of the notebook *)

Definition beams : Type := (npfloat * npfloat * npfloat * npfloat)%type.

Definition fore_of (b : beams) : npfloat := let '(t1, _, _, _) := b in t1.
Definition port_of (b : beams) : npfloat := let '(_, t2, _, _) := b in t2.
Definition aft_of (b : beams) : npfloat := let '(_, _, t3, _) := b in t3.
Definition stbd_of (b : beams) : npfloat := let '(_, _, _, t4) := b in t4.

(** A call: the text it prints and the tuple it returns. *)
Record outcome : Type := Outcome { stdout : string; returned : beams }.

(** [print(s)] writes [s] and a line feed. *)
Definition print (s : string) : string := s ++ newline.

Definition angle_from_vertical
    (fore_aft_angle port_starboard_angle pitch roll : R) : outcome :=
  let phi_pitch := np.deg2rad pitch in
  let phi_roll := np.deg2rad roll in
  let angle_fa := np.deg2rad fore_aft_angle in
  let angle_ps := np.deg2rad port_starboard_angle in
  let theta_1 := np.rad2deg (np.arccos
        (np.cos (angle_fa - phi_pitch) * np.cos phi_roll)) in
  let theta_2 := np.rad2deg (np.arccos
        (np.cos (angle_ps - phi_roll) * np.cos phi_pitch)) in
  let theta_3 := np.rad2deg (np.arccos
        (np.cos (angle_fa + phi_pitch) * np.cos phi_roll)) in
  let theta_4 := np.rad2deg (np.arccos
        (np.cos (angle_ps + phi_roll) * np.cos phi_pitch)) in
  Outcome
    (print ("fore angle: " ++ format_3f theta_1 ++ newline ++
            "port angle: " ++ format_3f theta_2 ++ newline ++
            "aft angle: " ++ format_3f theta_3 ++ newline ++
            "stbd angle: " ++ format_3f theta_4))
    (theta_1, theta_2, theta_3, theta_4).

(** Default values of the four parameters. *)
Definition default_fore_aft_angle : R := 47.5.
Definition default_port_starboard_angle : R := 25.
Definition default_pitch : R := 0.
Definition default_roll : R := 0.

(** A call with keyword arguments: a parameter left out takes its
    default. *)
Definition call (fore_aft_angle port_starboard_angle pitch roll : option R)
  : outcome :=
  angle_from_vertical
    (match fore_aft_angle with Some x => x | None => default_fore_aft_angle end)
    (match port_starboard_angle with
     | Some x => x | None => default_port_starboard_angle end)
    (match pitch with Some x => x | None => default_pitch end)
    (match roll with Some x => x | None => default_roll end).

(** The four angles of a call, for statements that do not look at the
    printed text. *)
Definition theta_1 (fa ps pitch roll : R) : npfloat :=
  fore_of (returned (angle_from_vertical fa ps pitch roll)).
Definition theta_2 (fa ps pitch roll : R) : npfloat :=
  port_of (returned (angle_from_vertical fa ps pitch roll)).
Definition theta_3 (fa ps pitch roll : R) : npfloat :=
  aft_of (returned (angle_from_vertical fa ps pitch roll)).
Definition theta_4 (fa ps pitch roll : R) : npfloat :=
  stbd_of (returned (angle_from_vertical fa ps pitch roll)).

(** ** The formulas as the specification writes them

    Degrees to radians and back, and the four closed forms of the
    first cell of the notebook, each an [arccos] of a product of two
    cosines taken in radians and brought back to degrees. *)
Definition radians (d : R) : R := d * PI / 180.
Definition degrees (x : R) : R := x * 180 / PI.

Definition spec_theta_1 (fore_aft port_starboard pitch roll : R) : R :=
  degrees (acos (Rtrigo_def.cos (radians fore_aft - radians pitch)
                 * Rtrigo_def.cos (radians roll))).
Definition spec_theta_2 (fore_aft port_starboard pitch roll : R) : R :=
  degrees (acos (Rtrigo_def.cos (radians port_starboard - radians roll)
                 * Rtrigo_def.cos (radians pitch))).
Definition spec_theta_3 (fore_aft port_starboard pitch roll : R) : R :=
  degrees (acos (Rtrigo_def.cos (radians fore_aft + radians pitch)
                 * Rtrigo_def.cos (radians roll))).
Definition spec_theta_4 (fore_aft port_starboard pitch roll : R) : R :=
  degrees (acos (Rtrigo_def.cos (radians port_starboard + radians roll)
                 * Rtrigo_def.cos (radians pitch))).

(** The four values handed to [np.arccos], in the order of the
    source. *)
Definition arccos_arguments (fore_aft_angle port_starboard_angle pitch roll : R)
  : R * R * R * R :=
  let phi_pitch := np.deg2rad pitch in
  let phi_roll := np.deg2rad roll in
  let angle_fa := np.deg2rad fore_aft_angle in
  let angle_ps := np.deg2rad port_starboard_angle in
  (np.cos (angle_fa - phi_pitch) * np.cos phi_roll,
   np.cos (angle_ps - phi_roll) * np.cos phi_pitch,
   np.cos (angle_fa + phi_pitch) * np.cos phi_roll,
   np.cos (angle_ps + phi_roll) * np.cos phi_pitch).

(** A float is a number (not nan) in the closed interval [lo, hi]. *)
Definition in_interval (lo hi : R) (x : npfloat) : Prop :=
  match x with
  | Some t => lo <= t <= hi
  | None => False
  end.

(** A float is a number at most [tol] away from [v]. *)
Definition within (tol : R) (x : npfloat) (v : R) : Prop :=
  match x with
  | Some t => Rabs (t - v) <= tol
  | None => False
  end.

Definition is_nan (x : npfloat) : bool :=
  match x with Some _ => false | None => true end.

(** ** Reading a printed number back

    The inverse of [format_3f] on its non-negative results: digits, a
    point, exactly three digits; the result counts thousandths. *)
Definition is_digit (c : ascii) : bool :=
  let n := nat_of_ascii c in
  ((48 <=? n)%nat && (n <=? 57)%nat)%bool.

Definition digit_value (c : ascii) : Z := (Z.of_nat (nat_of_ascii c) - 48)%Z.

Fixpoint read_fixed3 (s : string) (acc : Z) : option Z :=
  match s with
  | EmptyString => None
  | String c rest =>
      if Ascii.eqb c "." then
        match rest with
        | String a (String b (String d EmptyString)) =>
            if (is_digit a && is_digit b && is_digit d)%bool
            then Some (1000 * acc + 100 * digit_value a
                       + 10 * digit_value b + digit_value d)%Z
            else None
        | _ => None
        end
      else if is_digit c then read_fixed3 rest (10 * acc + digit_value c)%Z
      else None
  end.

Definition read_3f (s : string) : option Z := read_fixed3 s 0%Z.

(** The text [s] shows the float [x] to three decimal places: [s] reads
    back as a count of thousandths that is a nearest one to [x]. *)
Definition shows_three_places (x : npfloat) (s : string) : Prop :=
  exists (t : R) (n : Z),
    x = Some t /\ read_3f s = Some n /\ Rabs (t * 1000 - IZR n) <= 1 / 2.

(** ** Rational bounds used for the numerical evaluations *)

Definition PI_lo : R := 3.1415926535.
Definition PI_hi : R := 3.1415926536.


(** The Taylor polynomials of the cosine of degree 10 and 12. *)
Definition cos_below (x : R) : R :=
  1 - x^2/2 + x^4/24 - x^6/720 + x^8/40320 - x^10/3628800.
Definition cos_above (x : R) : R :=
  cos_below x + x^12/479001600.

(** Agreement of a returned tuple with four listed values to three
    decimals: each component rounds to the listed value. *)
Definition three_decimals (b : beams) (v1 v2 v3 v4 : R) : Prop :=
  within 0.0005 (fore_of b) v1 /\ within 0.0005 (port_of b) v2 /\
  within 0.0005 (aft_of b) v3 /\ within 0.0005 (stbd_of b) v4.

(** ** Counting the lines of the printed text *)

(** Number of line feeds of a text. *)
Fixpoint line_feeds (s : string) : nat :=
  match s with
  | EmptyString => O
  | String c rest =>
      if Ascii.eqb c (ascii_of_nat 10) then S (line_feeds rest)
      else line_feeds rest
  end.

(** * Properties *)

(** ** Degrees and radians *)

Lemma deg2rad_radians (d : R) : np.deg2rad d = radians d.
Proof. unfold np.deg2rad, radians; field. Qed.

Lemma deg2rad_opp (d : R) : np.deg2rad (- d) = - np.deg2rad d.
Proof. unfold np.deg2rad; ring. Qed.

Lemma deg2rad_plus (a b : R) :
  np.deg2rad a + np.deg2rad b = np.deg2rad (a + b).
Proof. unfold np.deg2rad; ring. Qed.

Lemma deg2rad_minus (a b : R) :
  np.deg2rad a - np.deg2rad b = np.deg2rad (a - b).
Proof. unfold np.deg2rad; ring. Qed.

Lemma deg2rad_0 : np.deg2rad 0 = 0.
Proof. unfold np.deg2rad; ring. Qed.

Lemma deg2rad_half_turn (d : R) :
  0 <= d <= 180 -> 0 <= np.deg2rad d <= PI.
Proof.
  intros [Hlo Hhi]; unfold np.deg2rad.
  pose proof PI_RGT_0 as Hpi.
  split; nra.
Qed.

Lemma rad2deg_deg2rad (d : R) :
  np.rad2deg (Some (np.deg2rad d)) = Some d.
Proof.
  unfold np.rad2deg, np.deg2rad; simpl; f_equal.
  field; apply PI_neq0.
Qed.

(** ** The arccosine never leaves its domain *)

Lemma cos_product_bound (a b : R) :
  -1 <= np.cos a * np.cos b <= 1.
Proof.
  unfold np.cos.
  pose proof (COS_bound a) as [Ha1 Ha2].
  pose proof (COS_bound b) as [Hb1 Hb2].
  split; nra.
Qed.

Lemma arccos_in_domain (x : R) :
  -1 <= x <= 1 -> np.arccos x = Some (acos x).
Proof.
  intros [Hlo Hhi]; unfold np.arccos.
  destruct (Rle_dec (-1) x) as [_ | Hn]; [| contradiction].
  destruct (Rle_dec x 1) as [_ | Hn]; [reflexivity | contradiction].
Qed.

Lemma arccos_cos_product (a b : R) :
  np.arccos (np.cos a * np.cos b) = Some (acos (np.cos a * np.cos b)).
Proof. apply arccos_in_domain, cos_product_bound. Qed.

(** The angle of one beam, in closed form. *)
Lemma beam_closed_form (a b : R) :
  np.rad2deg (np.arccos (np.cos a * np.cos b))
  = Some (degrees (acos (Rtrigo_def.cos a * Rtrigo_def.cos b))).
Proof.
  rewrite arccos_cos_product; unfold np.rad2deg, degrees, np.cos; simpl.
  f_equal; field; apply PI_neq0.
Qed.

Lemma degrees_acos_range (x : R) : 0 <= degrees (acos x) <= 180.
Proof.
  unfold degrees.
  pose proof (acos_bound x) as [Hlo Hhi].
  pose proof PI_RGT_0 as Hpi.
  split.
  - apply Rmult_le_pos; [nra | left; apply Rinv_0_lt_compat; exact Hpi].
  - apply (Rmult_le_reg_r PI); [exact Hpi |].
    replace (acos x * 180 / PI * PI) with (acos x * 180)
      by (field; apply PI_neq0).
    nra.
Qed.

(** With the other attitude angle flat the beam angle is the plain
    difference or sum of mounting angle and attitude. *)
Lemma beam_flat (d : R) :
  0 <= d <= 180 ->
  np.rad2deg (np.arccos (np.cos (np.deg2rad d) * np.cos (np.deg2rad 0)))
  = Some d.
Proof.
  intros Hd.
  rewrite deg2rad_0; unfold np.cos at 2; rewrite cos_0, Rmult_1_r.
  rewrite arccos_in_domain by (unfold np.cos; apply COS_bound).
  unfold np.cos; rewrite acos_cos by (apply deg2rad_half_turn; exact Hd).
  apply rad2deg_deg2rad.
Qed.

(** ** The returned tuple *)

Lemma returned_closed_form (fa ps pitch roll : R) :
  returned (angle_from_vertical fa ps pitch roll)
  = (Some (degrees (acos (Rtrigo_def.cos (np.deg2rad fa - np.deg2rad pitch)
                          * Rtrigo_def.cos (np.deg2rad roll)))),
     Some (degrees (acos (Rtrigo_def.cos (np.deg2rad ps - np.deg2rad roll)
                          * Rtrigo_def.cos (np.deg2rad pitch)))),
     Some (degrees (acos (Rtrigo_def.cos (np.deg2rad fa + np.deg2rad pitch)
                          * Rtrigo_def.cos (np.deg2rad roll)))),
     Some (degrees (acos (Rtrigo_def.cos (np.deg2rad ps + np.deg2rad roll)
                          * Rtrigo_def.cos (np.deg2rad pitch))))).
Proof.
  unfold angle_from_vertical; cbn [returned].
  rewrite !beam_closed_form; reflexivity.
Qed.

(** C1: for all real inputs the call returns, in the order fore, port,
    aft, starboard, the four numbers
    degrees(arccos(cos(fore_aft - pitch) cos(roll))),
    degrees(arccos(cos(port_starboard - roll) cos(pitch))),
    degrees(arccos(cos(fore_aft + pitch) cos(roll))),
    degrees(arccos(cos(port_starboard + roll) cos(pitch))),
    the angles inside the cosines being taken in radians. *)
Theorem angle_from_vertical_formulas (fa ps pitch roll : R) :
  returned (angle_from_vertical fa ps pitch roll)
  = (Some (spec_theta_1 fa ps pitch roll),
     Some (spec_theta_2 fa ps pitch roll),
     Some (spec_theta_3 fa ps pitch roll),
     Some (spec_theta_4 fa ps pitch roll)).
Proof.
  rewrite returned_closed_form.
  unfold spec_theta_1, spec_theta_2, spec_theta_3, spec_theta_4.
  rewrite !deg2rad_radians.
  reflexivity.
Qed.

(** C2: each of the four returned angles is a number between 0 and 180
    degrees, whatever the inputs. *)
Theorem angles_between_0_and_180 (fa ps pitch roll : R) :
  in_interval 0 180 (theta_1 fa ps pitch roll) /\
  in_interval 0 180 (theta_2 fa ps pitch roll) /\
  in_interval 0 180 (theta_3 fa ps pitch roll) /\
  in_interval 0 180 (theta_4 fa ps pitch roll).
Proof.
  unfold theta_1, theta_2, theta_3, theta_4.
  rewrite returned_closed_form.
  cbn [fore_of port_of aft_of stbd_of in_interval].
  repeat split; apply degrees_acos_range.
Qed.

(** C3: the four values handed to the arccosine are in [-1, 1], so no
    returned angle is nan; the function is total on the reals and
    checks nothing about its inputs. *)
Theorem arccos_never_out_of_domain (fa ps pitch roll : R) :
  let '(x1, x2, x3, x4) := arccos_arguments fa ps pitch roll in
  (-1 <= x1 <= 1 /\ -1 <= x2 <= 1 /\ -1 <= x3 <= 1 /\ -1 <= x4 <= 1) /\
  returned (angle_from_vertical fa ps pitch roll)
  = (np.rad2deg (np.arccos x1), np.rad2deg (np.arccos x2),
     np.rad2deg (np.arccos x3), np.rad2deg (np.arccos x4)) /\
  is_nan (theta_1 fa ps pitch roll) = false /\
  is_nan (theta_2 fa ps pitch roll) = false /\
  is_nan (theta_3 fa ps pitch roll) = false /\
  is_nan (theta_4 fa ps pitch roll) = false.
Proof.
  unfold arccos_arguments.
  split; [repeat split; apply cos_product_bound |].
  split; [reflexivity |].
  unfold theta_1, theta_2, theta_3, theta_4.
  rewrite returned_closed_form.
  repeat split.
Qed.

(** ** Symmetries *)

(** C4: with the roll flat, changing the sign of the pitch exchanges
    the fore and the aft angle. *)
Theorem pitch_sign_swaps_fore_aft (fa ps pitch : R) :
  theta_3 fa ps pitch 0 = theta_1 fa ps (- pitch) 0 /\
  theta_1 fa ps pitch 0 = theta_3 fa ps (- pitch) 0.
Proof.
  unfold theta_1, theta_3, angle_from_vertical;
    cbn [returned fore_of aft_of].
  rewrite deg2rad_opp.
  split; do 4 f_equal; ring.
Qed.

(** C5: changing the sign of the roll exchanges the port and the
    starboard angle. *)
Theorem roll_sign_swaps_port_stbd (fa ps pitch roll : R) :
  theta_2 fa ps pitch (- roll) = theta_4 fa ps pitch roll /\
  theta_4 fa ps pitch (- roll) = theta_2 fa ps pitch roll.
Proof.
  unfold theta_2, theta_4, angle_from_vertical;
    cbn [returned port_of stbd_of].
  rewrite deg2rad_opp.
  split; do 4 f_equal; ring.
Qed.

Lemma np_cos_opp (x : R) : np.cos (- x) = np.cos x.
Proof. unfold np.cos; apply cos_neg. Qed.

(** C10: exchanging the two mounting angles and the two attitude
    angles maps the fore and aft angles onto the port and starboard
    ones; hence port and starboard are even in the pitch, fore and aft
    even in the roll. *)
Theorem pairs_exchange (fa ps pitch roll : R) :
  (theta_2 fa ps pitch roll = theta_1 ps fa roll pitch /\
   theta_4 fa ps pitch roll = theta_3 ps fa roll pitch) /\
  (theta_2 fa ps (- pitch) roll = theta_2 fa ps pitch roll /\
   theta_4 fa ps (- pitch) roll = theta_4 fa ps pitch roll) /\
  (theta_1 fa ps pitch (- roll) = theta_1 fa ps pitch roll /\
   theta_3 fa ps pitch (- roll) = theta_3 fa ps pitch roll).
Proof.
  unfold theta_1, theta_2, theta_3, theta_4, angle_from_vertical;
    cbn [returned fore_of port_of aft_of stbd_of].
  rewrite !deg2rad_opp, !np_cos_opp.
  repeat split.
Qed.

(** ** Flat attitude

    In exact arithmetic [acos (cos x) = x] on [0, pi]; the lemmas of
    this part give the exact value the enclosures below start from. *)

Lemma fore_flat_roll (fa ps pitch : R) :
  0 <= fa - pitch <= 180 -> theta_1 fa ps pitch 0 = Some (fa - pitch).
Proof.
  intros Hd; unfold theta_1, angle_from_vertical; cbn [returned fore_of].
  rewrite deg2rad_minus; apply beam_flat, Hd.
Qed.

Lemma aft_flat_roll (fa ps pitch : R) :
  0 <= fa + pitch <= 180 -> theta_3 fa ps pitch 0 = Some (fa + pitch).
Proof.
  intros Hd; unfold theta_3, angle_from_vertical; cbn [returned aft_of].
  rewrite deg2rad_plus; apply beam_flat, Hd.
Qed.

Lemma port_flat_pitch (fa ps roll : R) :
  0 <= ps - roll <= 180 -> theta_2 fa ps 0 roll = Some (ps - roll).
Proof.
  intros Hd; unfold theta_2, angle_from_vertical; cbn [returned port_of].
  rewrite deg2rad_minus; apply beam_flat, Hd.
Qed.

Lemma stbd_flat_pitch (fa ps roll : R) :
  0 <= ps + roll <= 180 -> theta_4 fa ps 0 roll = Some (ps + roll).
Proof.
  intros Hd; unfold theta_4, angle_from_vertical; cbn [returned stbd_of].
  rewrite deg2rad_plus; apply beam_flat, Hd.
Qed.

Lemma returned_thetas (fa ps pitch roll : R) :
  returned (angle_from_vertical fa ps pitch roll)
  = (theta_1 fa ps pitch roll, theta_2 fa ps pitch roll,
     theta_3 fa ps pitch roll, theta_4 fa ps pitch roll).
Proof. reflexivity. Qed.

Lemma within_exact (tol v : R) : 0 <= tol -> within tol (Some v) v.
Proof.
  intros Htol; unfold within.
  replace (v - v) with 0 by ring.
  rewrite Rabs_R0; exact Htol.
Qed.

(** C6: the call with no argument returns (47.5, 25, 47.5, 25); in
    particular each component is within 1e-9 of these numbers. *)
Theorem default_call_flat :
  returned (call None None None None)
  = (Some 47.5, Some 25, Some 47.5, Some 25) /\
  within 1e-9 (fore_of (returned (call None None None None))) 47.5 /\
  within 1e-9 (port_of (returned (call None None None None))) 25 /\
  within 1e-9 (aft_of (returned (call None None None None))) 47.5 /\
  within 1e-9 (stbd_of (returned (call None None None None))) 25.
Proof.
  assert (H : returned (call None None None None)
              = (Some 47.5, Some 25, Some 47.5, Some 25)).
  { unfold call, default_fore_aft_angle, default_port_starboard_angle,
      default_pitch, default_roll.
    rewrite returned_thetas.
    rewrite fore_flat_roll, aft_flat_roll, port_flat_pitch, stbd_flat_pitch
      by lra.
    repeat f_equal; lra. }
  rewrite H; cbn [fore_of port_of aft_of stbd_of].
  split; [reflexivity |].
  repeat split; apply within_exact; lra.
Qed.

(** ** Rational enclosures of pi and of the cosine *)

(** Twelve terms of the series of 2 atan(1/3) + atan(1/7). *)
Lemma PI_enclosure : PI_lo <= PI <= PI_hi.
Proof.
  pose proof (PI_2_3_7_ineq 5) as [Hlo Hhi].
  unfold PI_2_3_7_tg, tg_alt, Ratan_seq in Hlo, Hhi.
  cbn [sum_f_R0 Nat.mul Nat.add INR] in Hlo, Hhi.
  unfold PI_lo, PI_hi; split; lra.
Qed.

Lemma INR_fact_S (n : nat) : INR (fact (S n)) = INR (S n) * INR (fact n).
Proof. rewrite fact_simpl, mult_INR; reflexivity. Qed.

Ltac fact_value := rewrite !INR_fact_S; cbn [fact INR]; ring.

Lemma INR_fact_2 : INR (fact 2) = 2. Proof. fact_value. Qed.
Lemma INR_fact_4 : INR (fact 4) = 24. Proof. fact_value. Qed.
Lemma INR_fact_6 : INR (fact 6) = 720. Proof. fact_value. Qed.
Lemma INR_fact_8 : INR (fact 8) = 40320. Proof. fact_value. Qed.
Lemma INR_fact_10 : INR (fact 10) = 3628800. Proof. fact_value. Qed.
Lemma INR_fact_12 : INR (fact 12) = 479001600. Proof. fact_value. Qed.

Lemma cos_approx_5 (x : R) : cos_approx x 5 = cos_below x.
Proof.
  unfold cos_approx, cos_term, cos_below.
  cbn [sum_f_R0 Nat.mul Nat.add].
  rewrite INR_fact_2, INR_fact_4, INR_fact_6, INR_fact_8, INR_fact_10.
  change (INR (fact 0)) with 1.
  field.
Qed.

Lemma cos_approx_6 (x : R) : cos_approx x 6 = cos_above x.
Proof.
  unfold cos_approx, cos_term, cos_above, cos_below.
  cbn [sum_f_R0 Nat.mul Nat.add].
  rewrite INR_fact_2, INR_fact_4, INR_fact_6, INR_fact_8, INR_fact_10,
    INR_fact_12.
  change (INR (fact 0)) with 1.
  field.
Qed.

Lemma cos_enclosure (x : R) :
  0 <= x <= 2 -> cos_below x <= Rtrigo_def.cos x <= cos_above x.
Proof.
  intros [H0 H2].
  rewrite <- cos_approx_5, <- cos_approx_6.
  apply (pre_cos_bound x 2); lra.
Qed.

(** The cosine of an angle given in degrees, between two rationals. *)
Lemma cos_deg_lower (d : R) :
  0 <= d <= 90 ->
  cos_below (d * (PI_hi / 180)) <= Rtrigo_def.cos (np.deg2rad d).
Proof.
  intros [H0 H90].
  pose proof PI_enclosure as [Hlo Hhi]; unfold PI_lo, PI_hi in *.
  unfold np.deg2rad.
  assert (Hx : 0 <= d * (PI / 180) <= d * (3.1415926536 / 180))
    by (split; nra).
  apply Rle_trans with (Rtrigo_def.cos (d * (3.1415926536 / 180))).
  - apply cos_enclosure; lra.
  - apply cos_decr_1; lra.
Qed.

Lemma cos_deg_upper (d : R) :
  0 <= d <= 90 ->
  Rtrigo_def.cos (np.deg2rad d) <= cos_above (d * (PI_lo / 180)).
Proof.
  intros [H0 H90].
  pose proof PI_enclosure as [Hlo Hhi]; unfold PI_lo, PI_hi in *.
  unfold np.deg2rad.
  assert (Hx : 0 <= d * (3.1415926535 / 180) <= d * (PI / 180))
    by (split; nra).
  assert (Hh : d * (PI / 180) <= 2) by nra.
  apply Rle_trans with (Rtrigo_def.cos (d * (3.1415926535 / 180))).
  - apply cos_decr_1; lra.
  - apply cos_enclosure; lra.
Qed.

Lemma degrees_deg2rad (d : R) : degrees (np.deg2rad d) = d.
Proof. unfold degrees, np.deg2rad; field; apply PI_neq0. Qed.

Lemma degrees_le (x y : R) : x <= y -> degrees x <= degrees y.
Proof.
  intros Hxy; unfold degrees, Rdiv.
  pose proof (Rinv_0_lt_compat PI PI_RGT_0) as Hinv.
  apply Rmult_le_compat_r; [lra |].
  apply Rmult_le_compat_r; lra.
Qed.

(** The arccosine turns an enclosure of its argument by two cosines
    into an enclosure of the angle. *)
Lemma degrees_acos_enclosure (x lo hi : R) :
  0 <= lo <= 180 -> 0 <= hi <= 180 -> -1 <= x <= 1 ->
  Rtrigo_def.cos (np.deg2rad hi) <= x <= Rtrigo_def.cos (np.deg2rad lo) ->
  lo <= degrees (acos x) <= hi.
Proof.
  intros Hlo Hhi Hx [Hc1 Hc2].
  pose proof (acos_bound x) as [Ha0 Ha1].
  pose proof (deg2rad_half_turn lo Hlo) as [Hl0 Hl1].
  pose proof (deg2rad_half_turn hi Hhi) as [Hh0 Hh1].
  rewrite <- (cos_acos x Hx) in Hc1, Hc2.
  split.
  - rewrite <- (degrees_deg2rad lo) at 1.
    apply degrees_le, (cos_decr_0 (acos x) (np.deg2rad lo)); assumption.
  - rewrite <- (degrees_deg2rad hi) at 1.
    apply degrees_le, (cos_decr_0 (np.deg2rad hi) (acos x)); assumption.
Qed.

(** With the roll flat, the port and starboard angles are enclosed by
    [lo] and [hi] as soon as the Taylor polynomials separate the three
    cosines. *)
Lemma port_stbd_enclosure (fa ps pitch lo hi : R) :
  0 <= ps <= 90 -> 0 <= pitch <= 90 -> 0 <= lo <= 90 -> 0 <= hi <= 90 ->
  0 <= cos_below (ps * (PI_hi / 180)) ->
  0 <= cos_below (pitch * (PI_hi / 180)) ->
  cos_above (hi * (PI_lo / 180))
  <= cos_below (ps * (PI_hi / 180)) * cos_below (pitch * (PI_hi / 180)) ->
  cos_above (ps * (PI_lo / 180)) * cos_above (pitch * (PI_lo / 180))
  <= cos_below (lo * (PI_hi / 180)) ->
  in_interval lo hi (theta_2 fa ps pitch 0) /\
  in_interval lo hi (theta_4 fa ps pitch 0).
Proof.
  intros Hps Hpitch Hlo Hhi Hp1 Hp2 Hup Hdown.
  pose proof (cos_deg_lower ps Hps) as Lps.
  pose proof (cos_deg_upper ps Hps) as Ups.
  pose proof (cos_deg_lower pitch Hpitch) as Lpitch.
  pose proof (cos_deg_upper pitch Hpitch) as Upitch.
  pose proof (cos_deg_lower lo Hlo) as Llo.
  pose proof (cos_deg_upper hi Hhi) as Uhi.
  assert (Hin : lo <= degrees (acos (Rtrigo_def.cos (np.deg2rad ps)
                                     * Rtrigo_def.cos (np.deg2rad pitch)))
                <= hi).
  { apply degrees_acos_enclosure; [lra | lra | |].
    - apply (cos_product_bound (np.deg2rad ps) (np.deg2rad pitch)).
    - split.
      + eapply Rle_trans; [exact Uhi |].
        eapply Rle_trans; [exact Hup |].
        apply Rmult_le_compat; assumption.
      + eapply Rle_trans; [| exact Llo].
        eapply Rle_trans; [| exact Hdown].
        apply Rmult_le_compat; try assumption; lra. }
  unfold theta_2, theta_4.
  rewrite returned_closed_form; cbn [port_of stbd_of in_interval].
  rewrite deg2rad_0, Rminus_0_r, Rplus_0_r.
  split; exact Hin.
Qed.

Ltac enclose :=
  apply port_stbd_enclosure;
  unfold cos_above, cos_below, PI_lo, PI_hi; lra.

(** The four pairs of port/starboard mounting angle and pitch of the
    notebook, each angle known to two millionths of a degree. *)
Lemma enclosure_25_17_4 (fa : R) :
  in_interval 30.136078 30.136082 (theta_2 fa 25 17.4 0) /\
  in_interval 30.136078 30.136082 (theta_4 fa 25 17.4 0).
Proof. enclose. Qed.

Lemma enclosure_25_22 (fa : R) :
  in_interval 32.826711 32.826715 (theta_2 fa 25 22 0) /\
  in_interval 32.826711 32.826715 (theta_4 fa 25 22 0).
Proof. enclose. Qed.

Lemma enclosure_13_2_22 (fa : R) :
  in_interval 25.486505 25.486509 (theta_2 fa 13.2 22 0) /\
  in_interval 25.486505 25.486509 (theta_4 fa 13.2 22 0).
Proof. enclose. Qed.

Lemma enclosure_21_1_22 (fa : R) :
  in_interval 30.115071 30.115075 (theta_2 fa 21.1 22 0) /\
  in_interval 30.115071 30.115075 (theta_4 fa 21.1 22 0).
Proof. enclose. Qed.

Lemma in_interval_within (lo hi tol v : R) (x : npfloat) :
  in_interval lo hi x -> v - tol <= lo -> hi <= v + tol -> within tol x v.
Proof.
  destruct x as [t |]; cbn [in_interval within]; [| tauto].
  intros [H1 H2] Hlo Hhi.
  apply Rabs_le; lra.
Qed.

Lemma within_plain (tol v t : R) :
  v - tol <= t <= v + tol -> within tol (Some t) v.
Proof. intros H; cbn [within]; apply Rabs_le; lra. Qed.

Lemma port_pitch_sign (fa ps p q roll : R) :
  q = - p -> theta_2 fa ps q roll = theta_2 fa ps p roll.
Proof.
  intros ->; unfold theta_2, angle_from_vertical; cbn [returned port_of].
  rewrite deg2rad_opp, np_cos_opp; reflexivity.
Qed.

Lemma stbd_pitch_sign (fa ps p q roll : R) :
  q = - p -> theta_4 fa ps q roll = theta_4 fa ps p roll.
Proof.
  intros ->; unfold theta_4, angle_from_vertical; cbn [returned stbd_of].
  rewrite deg2rad_opp, np_cos_opp; reflexivity.
Qed.

(** ** The calls of the notebook *)

Lemma three_decimals_flat_roll (fa ps pitch lo hi v1 v2 v3 : R) :
  in_interval lo hi (theta_2 fa ps pitch 0) /\
  in_interval lo hi (theta_4 fa ps pitch 0) ->
  0 <= fa - pitch <= 180 -> 0 <= fa + pitch <= 180 ->
  v1 - 0.0005 <= fa - pitch <= v1 + 0.0005 ->
  v3 - 0.0005 <= fa + pitch <= v3 + 0.0005 ->
  v2 - 0.0005 <= lo -> hi <= v2 + 0.0005 ->
  three_decimals (returned (angle_from_vertical fa ps pitch 0)) v1 v2 v3 v2.
Proof.
  intros [H2 H4] Hfore Haft Hv1 Hv3 Hlo Hhi.
  unfold three_decimals; rewrite returned_thetas.
  cbn [fore_of port_of aft_of stbd_of].
  rewrite fore_flat_roll, aft_flat_roll by assumption.
  repeat split.
  - apply within_plain, Hv1.
  - apply (in_interval_within lo hi); assumption.
  - apply within_plain, Hv3.
  - apply (in_interval_within lo hi); assumption.
Qed.

(** C7: the five evaluations listed in the specification, each
    component agreeing with the listed value to three decimals. *)
Theorem listed_evaluations :
  three_decimals (returned (call None None (Some 17.4) None))
    30.100 30.136 64.900 30.136 /\
  three_decimals (returned (call None None (Some (- 17.4)) None))
    64.900 30.136 30.100 30.136 /\
  three_decimals (returned (call (Some 54.8) None (Some 22) None))
    32.800 32.827 76.800 32.827 /\
  three_decimals (returned (call None (Some 13.2) (Some 22) None))
    25.500 25.487 69.500 25.487 /\
  three_decimals
    (returned (call (Some 52.1) (Some 21.1) (Some 22) None))
    30.100 30.115 74.100 30.115.
Proof.
  unfold call, default_fore_aft_angle, default_port_starboard_angle,
    default_roll.
  split; [| split; [| split; [| split]]].
  - apply (three_decimals_flat_roll _ _ _ 30.136078 30.136082);
      [apply enclosure_25_17_4 | lra ..].
  - apply (three_decimals_flat_roll _ _ _ 30.136078 30.136082);
      [| lra ..].
    rewrite (port_pitch_sign _ _ 17.4), (stbd_pitch_sign _ _ 17.4) by lra.
    apply enclosure_25_17_4.
  - apply (three_decimals_flat_roll _ _ _ 32.826711 32.826715);
      [apply enclosure_25_22 | lra ..].
  - apply (three_decimals_flat_roll _ _ _ 25.486505 25.486509);
      [apply enclosure_13_2_22 | lra ..].
  - apply (three_decimals_flat_roll _ _ _ 30.115071 30.115075);
      [apply enclosure_21_1_22 | lra ..].
Qed.

(** ** Rounding to the nearest integer *)

Lemma round_half_even_error (x : R) :
  Rabs (x - IZR (round_half_even x)) <= 1 / 2.
Proof.
  unfold round_half_even.
  pose proof (base_Int_part x) as [Hle Hgt].
  destruct (Rlt_dec (x - IZR (Int_part x)) (1 / 2)) as [Hlt | Hge].
  - apply Rabs_le; lra.
  - destruct (Rlt_dec (1 / 2) (x - IZR (Int_part x))) as [Hlt' | Hge'].
    + rewrite plus_IZR; apply Rabs_le; lra.
    + destruct (Z.even (Int_part x)).
      * apply Rabs_le; lra.
      * rewrite plus_IZR; apply Rabs_le; lra.
Qed.

Lemma IZR_close (a b : Z) : -1 < IZR a - IZR b < 1 -> a = b.
Proof.
  intros [H1 H2].
  assert (a - b < 1)%Z by (apply lt_IZR; rewrite minus_IZR; lra).
  assert (-1 < a - b)%Z by (apply lt_IZR; rewrite minus_IZR; lra).
  lia.
Qed.

Lemma round_half_even_near (x : R) (n : Z) :
  IZR n - 1 / 2 < x < IZR n + 1 / 2 -> round_half_even x = n.
Proof.
  intros [Hlo Hhi]; unfold round_half_even.
  pose proof (base_Int_part x) as [Hle Hgt].
  destruct (Rlt_dec (x - IZR (Int_part x)) (1 / 2)) as [Hlt | Hge].
  - apply IZR_close; lra.
  - destruct (Rlt_dec (1 / 2) (x - IZR (Int_part x))) as [Hlt' | Hge'].
    + apply IZR_close; rewrite plus_IZR; lra.
    + exfalso.
      assert (Hn : Int_part x = (n - 1)%Z \/ Int_part x <> (n - 1)%Z) by lia.
      destruct Hn as [Hn | Hn].
      * rewrite Hn, minus_IZR in Hge, Hge'; lra.
      * apply Hn, IZR_close; rewrite minus_IZR; lra.
Qed.

Lemma round_half_even_nonneg (x : R) : 0 <= x -> (0 <= round_half_even x)%Z.
Proof.
  intros Hx.
  unfold round_half_even.
  pose proof (base_Int_part x) as [Hle Hgt].
  assert (-1 < Int_part x)%Z by (apply lt_IZR; lra).
  destruct (Rlt_dec (x - IZR (Int_part x)) (1 / 2)); [lia |].
  destruct (Rlt_dec (1 / 2) (x - IZR (Int_part x))); [lia |].
  destruct (Z.even (Int_part x)); lia.
Qed.

(** ** Digits *)

Lemma digit_cases (d : Z) :
  (0 <= d <= 9)%Z ->
  d = 0%Z \/ d = 1%Z \/ d = 2%Z \/ d = 3%Z \/ d = 4%Z \/
  d = 5%Z \/ d = 6%Z \/ d = 7%Z \/ d = 8%Z \/ d = 9%Z.
Proof. lia. Qed.

Lemma digit_is_digit (d : Z) :
  (0 <= d <= 9)%Z ->
  is_digit (digit d) = true /\ digit_value (digit d) = d /\
  Ascii.eqb (digit d) "." = false.
Proof.
  intros Hd.
  destruct (digit_cases d Hd) as [-> | [-> | [-> | [-> | [-> | [-> | [-> |
    [-> | [-> | ->]]]]]]]]]; repeat split; reflexivity.
Qed.

Lemma read_fixed3_digit (d : Z) (rest : string) (acc : Z) :
  (0 <= d <= 9)%Z ->
  read_fixed3 (String (digit d) rest) acc
  = read_fixed3 rest (10 * acc + d)%Z.
Proof.
  intros Hd; destruct (digit_is_digit d Hd) as (H1 & H2 & H3).
  cbn [read_fixed3]; rewrite H3, H1, H2; reflexivity.
Qed.

Lemma digits_fuel_app (fuel : nat) :
  forall (n : Z) (acc rest : string),
    (digits_fuel fuel n acc ++ rest)%string
    = digits_fuel fuel n (acc ++ rest)%string.
Proof.
  induction fuel as [| fuel IH]; intros n acc rest; cbn [digits_fuel].
  - reflexivity.
  - destruct (n <? 10)%Z; [reflexivity |].
    rewrite IH; reflexivity.
Qed.

(** Reading the digits written for [n] in front of [acc] continues
    on [acc] with [n] read so far. *)
Lemma read_digits_fuel (fuel : nat) :
  forall (n : Z) (acc : string),
    (0 <= n < 2 ^ Z.of_nat fuel)%Z ->
    read_fixed3 (digits_fuel fuel n acc) 0 = read_fixed3 acc n.
Proof.
  induction fuel as [| fuel IH]; intros n acc Hn; cbn [digits_fuel].
  - change (2 ^ Z.of_nat 0)%Z with 1%Z in Hn.
    replace n with 0%Z by lia; reflexivity.
  - rewrite Nat2Z.inj_succ, Z.pow_succ_r in Hn by lia.
    destruct (Z.ltb_spec n 10) as [Hlt | Hge].
    + rewrite Z.mod_small by lia.
      rewrite read_fixed3_digit by lia.
      f_equal; lia.
    + rewrite IH.
      * rewrite read_fixed3_digit
          by (pose proof (Z.mod_pos_bound n 10); lia).
        f_equal.
        pose proof (Z.div_mod n 10); lia.
      * split; [apply Z.div_pos; lia |].
        apply Z.div_lt_upper_bound; lia.
Qed.

Lemma read_decimal (n : Z) (rest : string) :
  (0 <= n)%Z ->
  read_fixed3 (decimal n ++ rest) 0 = read_fixed3 rest n.
Proof.
  intros Hn; unfold decimal.
  rewrite digits_fuel_app; cbn [append].
  apply read_digits_fuel.
  split; [exact Hn |].
  rewrite Nat2Z.inj_succ, Z2Nat.id by apply Z.log2_nonneg.
  destruct (Z.eq_dec n 0) as [-> | Hnz]; [reflexivity |].
  apply Z.log2_spec; lia.
Qed.

(** What [thousandths] writes reads back as the same number. *)
Lemma read_thousandths (n : Z) :
  (0 <= n)%Z -> read_3f (thousandths n) = Some n.
Proof.
  intros Hn; unfold read_3f, thousandths.
  rewrite read_decimal by (apply Z.div_pos; lia).
  cbn [append read_fixed3].
  change (Ascii.eqb "." ".") with true; cbv iota.
  pose proof (Z.mod_pos_bound n 1000 ltac:(lia)) as Hr.
  set (r := (n mod 1000)%Z) in *.
  assert (H1 : (0 <= r / 100 <= 9)%Z).
  { split; [apply Z.div_pos; lia |].
    apply Z.lt_succ_r, Z.div_lt_upper_bound; lia. }
  assert (H2 : (0 <= r / 10 mod 10 <= 9)%Z)
    by (pose proof (Z.mod_pos_bound (r / 10) 10); lia).
  assert (H3 : (0 <= r mod 10 <= 9)%Z)
    by (pose proof (Z.mod_pos_bound r 10); lia).
  destruct (digit_is_digit _ H1) as (A1 & A2 & _).
  destruct (digit_is_digit _ H2) as (B1 & B2 & _).
  destruct (digit_is_digit _ H3) as (C1 & C2 & _).
  rewrite A1, B1, C1, A2, B2, C2; cbn [andb].
  f_equal.
  pose proof (Z.div_mod n 1000).
  pose proof (Z.div_mod r 10).
  pose proof (Z.div_mod (r / 10) 10).
  assert (r / 10 / 10 = r / 100)%Z by (rewrite Z.div_div by lia; reflexivity).
  fold r in H; lia.
Qed.

(** ** The printed text *)

Lemma append_assoc (a b c : string) :
  ((a ++ b) ++ c)%string = (a ++ (b ++ c))%string.
Proof.
  induction a as [| ch a IH]; cbn [append]; [reflexivity |].
  rewrite IH; reflexivity.
Qed.

Lemma format_3f_nonneg (t : R) :
  0 <= t ->
  format_3f (Some t) = thousandths (round_half_even (t * 1000)).
Proof.
  intros Ht; unfold format_3f.
  rewrite (Rabs_pos_eq t Ht).
  destruct (Rlt_dec t 0) as [Hneg | _]; [lra | reflexivity].
Qed.

Lemma format_3f_shows (lo hi : R) (x : npfloat) :
  0 <= lo -> in_interval lo hi x -> shows_three_places x (format_3f x).
Proof.
  destruct x as [t |]; cbn [in_interval]; [| tauto].
  intros Hlo [Ht _].
  exists t, (round_half_even (t * 1000)).
  split; [reflexivity |].
  rewrite format_3f_nonneg by lra.
  split.
  - apply read_thousandths, round_half_even_nonneg; lra.
  - apply round_half_even_error.
Qed.

Lemma thetas_in_half_turn (fa ps pitch roll : R) :
  in_interval 0 180 (theta_1 fa ps pitch roll) /\
  in_interval 0 180 (theta_2 fa ps pitch roll) /\
  in_interval 0 180 (theta_3 fa ps pitch roll) /\
  in_interval 0 180 (theta_4 fa ps pitch roll).
Proof.
  unfold theta_1, theta_2, theta_3, theta_4.
  rewrite returned_closed_form.
  cbn [fore_of port_of aft_of stbd_of in_interval].
  repeat split; apply degrees_acos_range.
Qed.

Lemma stdout_thetas (fa ps pitch roll : R) :
  stdout (angle_from_vertical fa ps pitch roll)
  = ("fore angle: " ++ format_3f (theta_1 fa ps pitch roll) ++ newline ++
     "port angle: " ++ format_3f (theta_2 fa ps pitch roll) ++ newline ++
     "aft angle: " ++ format_3f (theta_3 fa ps pitch roll) ++ newline ++
     "stbd angle: " ++ format_3f (theta_4 fa ps pitch roll) ++ newline)%string.
Proof.
  unfold angle_from_vertical, print; cbn [stdout].
  rewrite !append_assoc.
  reflexivity.
Qed.

(** C8: besides returning the tuple, the call prints four lines,
    "fore angle: ", "port angle: ", "aft angle: " and "stbd angle: " in
    this order, each followed by the angle written with three digits
    after the point. *)
Theorem prints_four_labelled_lines (fa ps pitch roll : R) :
  exists s1 s2 s3 s4 : string,
    stdout (angle_from_vertical fa ps pitch roll)
    = ("fore angle: " ++ s1 ++ newline ++
       "port angle: " ++ s2 ++ newline ++
       "aft angle: " ++ s3 ++ newline ++
       "stbd angle: " ++ s4 ++ newline)%string /\
    returned (angle_from_vertical fa ps pitch roll)
    = (theta_1 fa ps pitch roll, theta_2 fa ps pitch roll,
       theta_3 fa ps pitch roll, theta_4 fa ps pitch roll) /\
    shows_three_places (theta_1 fa ps pitch roll) s1 /\
    shows_three_places (theta_2 fa ps pitch roll) s2 /\
    shows_three_places (theta_3 fa ps pitch roll) s3 /\
    shows_three_places (theta_4 fa ps pitch roll) s4.
Proof.
  exists (format_3f (theta_1 fa ps pitch roll)),
    (format_3f (theta_2 fa ps pitch roll)),
    (format_3f (theta_3 fa ps pitch roll)),
    (format_3f (theta_4 fa ps pitch roll)).
  destruct (thetas_in_half_turn fa ps pitch roll) as (H1 & H2 & H3 & H4).
  split; [apply stdout_thetas |].
  split; [reflexivity |].
  repeat split; apply (format_3f_shows 0 180); solve [lra | assumption].
Qed.

(** ** The outputs recorded in the notebook *)

Lemma format_3f_enclosed (lo hi : R) (x : npfloat) (n : Z) :
  in_interval lo hi x -> 0 <= lo ->
  IZR n - 1 / 2 < lo * 1000 -> hi * 1000 < IZR n + 1 / 2 ->
  format_3f x = thousandths n.
Proof.
  destruct x as [t |]; cbn [in_interval]; [| tauto].
  intros [H1 H2] Hlo Hn1 Hn2.
  rewrite format_3f_nonneg by lra.
  f_equal; apply round_half_even_near; lra.
Qed.

Lemma format_3f_plain (t : R) (n : Z) :
  0 <= t -> t * 1000 = IZR n -> format_3f (Some t) = thousandths n.
Proof.
  intros Ht Hn.
  rewrite format_3f_nonneg by exact Ht.
  f_equal; apply round_half_even_near; lra.
Qed.

(** The text of a call with the roll flat, from an enclosure of the
    port and starboard angles. *)
Lemma stdout_flat_roll (fa ps pitch lo hi : R) (n1 n2 n3 : Z) :
  in_interval lo hi (theta_2 fa ps pitch 0) /\
  in_interval lo hi (theta_4 fa ps pitch 0) ->
  0 <= fa - pitch <= 180 -> 0 <= fa + pitch <= 180 ->
  (fa - pitch) * 1000 = IZR n1 -> (fa + pitch) * 1000 = IZR n3 ->
  0 <= lo -> IZR n2 - 1 / 2 < lo * 1000 -> hi * 1000 < IZR n2 + 1 / 2 ->
  stdout (angle_from_vertical fa ps pitch 0)
  = ("fore angle: " ++ thousandths n1 ++ newline ++
     "port angle: " ++ thousandths n2 ++ newline ++
     "aft angle: " ++ thousandths n3 ++ newline ++
     "stbd angle: " ++ thousandths n2 ++ newline)%string.
Proof.
  intros [H2 H4] Hfore Haft Hn1 Hn3 Hlo Hn2 Hn2'.
  rewrite stdout_thetas.
  rewrite fore_flat_roll, aft_flat_roll by assumption.
  rewrite (format_3f_plain _ n1), (format_3f_plain _ n3) by lra.
  rewrite (format_3f_enclosed lo hi _ n2 H2), (format_3f_enclosed lo hi _ n2 H4)
    by assumption.
  reflexivity.
Qed.

Lemma notebook_output_3 :
  stdout (call None None None None)
  = ("fore angle: 47.500" ++ newline ++ "port angle: 25.000" ++ newline ++
     "aft angle: 47.500" ++ newline ++ "stbd angle: 25.000" ++ newline)%string.
Proof.
  unfold call, default_fore_aft_angle, default_port_starboard_angle,
    default_pitch, default_roll.
  rewrite stdout_thetas.
  rewrite fore_flat_roll, aft_flat_roll, port_flat_pitch, stbd_flat_pitch
    by lra.
  rewrite (format_3f_plain (47.5 - 0) 47500), (format_3f_plain (25 - 0) 25000),
    (format_3f_plain (47.5 + 0) 47500), (format_3f_plain (25 + 0) 25000)
    by lra.
  reflexivity.
Qed.

Lemma notebook_output_4 :
  stdout (call None None (Some 17.4) None)
  = ("fore angle: 30.100" ++ newline ++ "port angle: 30.136" ++ newline ++
     "aft angle: 64.900" ++ newline ++ "stbd angle: 30.136" ++ newline)%string.
Proof.
  unfold call, default_fore_aft_angle, default_port_starboard_angle,
    default_roll.
  rewrite (stdout_flat_roll _ _ _ 30.136078 30.136082 30100 30136 64900);
    [reflexivity | apply enclosure_25_17_4 | lra ..].
Qed.

Lemma notebook_output_5 :
  stdout (call None None (Some (- 17.4)) None)
  = ("fore angle: 64.900" ++ newline ++ "port angle: 30.136" ++ newline ++
     "aft angle: 30.100" ++ newline ++ "stbd angle: 30.136" ++ newline)%string.
Proof.
  unfold call, default_fore_aft_angle, default_port_starboard_angle,
    default_roll.
  rewrite (stdout_flat_roll _ _ _ 30.136078 30.136082 64900 30136 30100);
    [reflexivity | | lra ..].
  rewrite (port_pitch_sign _ _ 17.4), (stbd_pitch_sign _ _ 17.4) by lra.
  apply enclosure_25_17_4.
Qed.

Lemma notebook_output_6 :
  stdout (call (Some 54.8) None (Some 22) None)
  = ("fore angle: 32.800" ++ newline ++ "port angle: 32.827" ++ newline ++
     "aft angle: 76.800" ++ newline ++ "stbd angle: 32.827" ++ newline)%string.
Proof.
  unfold call, default_port_starboard_angle, default_roll.
  rewrite (stdout_flat_roll _ _ _ 32.826711 32.826715 32800 32827 76800);
    [reflexivity | apply enclosure_25_22 | lra ..].
Qed.

Lemma notebook_output_7 :
  stdout (call None (Some 13.2) (Some 22) None)
  = ("fore angle: 25.500" ++ newline ++ "port angle: 25.487" ++ newline ++
     "aft angle: 69.500" ++ newline ++ "stbd angle: 25.487" ++ newline)%string.
Proof.
  unfold call, default_fore_aft_angle, default_roll.
  rewrite (stdout_flat_roll _ _ _ 25.486505 25.486509 25500 25487 69500);
    [reflexivity | apply enclosure_13_2_22 | lra ..].
Qed.

Lemma notebook_output_8 :
  stdout (call (Some 52.1) (Some 21.1) (Some 22) None)
  = ("fore angle: 30.100" ++ newline ++ "port angle: 30.115" ++ newline ++
     "aft angle: 74.100" ++ newline ++ "stbd angle: 30.115" ++ newline)%string.
Proof.
  unfold call, default_roll.
  rewrite (stdout_flat_roll _ _ _ 30.115071 30.115075 30100 30115 74100);
    [reflexivity | apply enclosure_21_1_22 | lra ..].
Qed.

(** * Further properties of [angle_from_vertical] *)

(** ** Signs of the inputs *)

(** X3: changing the sign of both mounting angles exchanges fore with
    aft and port with starboard. *)
Theorem mount_sign_exchanges_beams (fa ps pitch roll : R) :
  returned (angle_from_vertical (- fa) (- ps) pitch roll)
  = (theta_3 fa ps pitch roll, theta_4 fa ps pitch roll,
     theta_1 fa ps pitch roll, theta_2 fa ps pitch roll).
Proof.
  unfold theta_1, theta_2, theta_3, theta_4, angle_from_vertical;
    cbn [returned fore_of port_of aft_of stbd_of].
  rewrite !deg2rad_opp.
  rewrite <- (np_cos_opp (np.deg2rad fa + np.deg2rad pitch)).
  rewrite <- (np_cos_opp (np.deg2rad fa - np.deg2rad pitch)).
  rewrite <- (np_cos_opp (np.deg2rad ps + np.deg2rad roll)).
  rewrite <- (np_cos_opp (np.deg2rad ps - np.deg2rad roll)).
  replace (- (np.deg2rad fa + np.deg2rad pitch))
    with (- np.deg2rad fa - np.deg2rad pitch) by ring.
  replace (- (np.deg2rad fa - np.deg2rad pitch))
    with (- np.deg2rad fa + np.deg2rad pitch) by ring.
  replace (- (np.deg2rad ps + np.deg2rad roll))
    with (- np.deg2rad ps - np.deg2rad roll) by ring.
  replace (- (np.deg2rad ps - np.deg2rad roll))
    with (- np.deg2rad ps + np.deg2rad roll) by ring.
  reflexivity.
Qed.

(** X4: with the roll flat the port and starboard angles are equal,
    with the pitch flat the fore and aft angles are. *)
Theorem flat_axis_equal_pair (fa ps pitch roll : R) :
  theta_2 fa ps pitch 0 = theta_4 fa ps pitch 0 /\
  theta_1 fa ps 0 roll = theta_3 fa ps 0 roll.
Proof.
  unfold theta_1, theta_2, theta_3, theta_4, angle_from_vertical;
    cbn [returned fore_of port_of aft_of stbd_of].
  rewrite deg2rad_0, !Rminus_0_r, !Rplus_0_r.
  split; reflexivity.
Qed.

(** X11: changing the sign of the pitch, whatever the roll, exchanges
    the fore and aft angles and leaves port and starboard as they are;
    changing the sign of the roll exchanges port and starboard and
    leaves fore and aft as they are. *)
Theorem attitude_sign_exchanges_beams (fa ps pitch roll : R) :
  returned (angle_from_vertical fa ps (- pitch) roll)
  = (theta_3 fa ps pitch roll, theta_2 fa ps pitch roll,
     theta_1 fa ps pitch roll, theta_4 fa ps pitch roll) /\
  returned (angle_from_vertical fa ps pitch (- roll))
  = (theta_1 fa ps pitch roll, theta_4 fa ps pitch roll,
     theta_3 fa ps pitch roll, theta_2 fa ps pitch roll).
Proof.
  unfold theta_1, theta_2, theta_3, theta_4, angle_from_vertical;
    cbn [returned fore_of port_of aft_of stbd_of].
  rewrite !deg2rad_opp, !np_cos_opp.
  replace (np.deg2rad fa - - np.deg2rad pitch)
    with (np.deg2rad fa + np.deg2rad pitch) by ring.
  replace (np.deg2rad fa + - np.deg2rad pitch)
    with (np.deg2rad fa - np.deg2rad pitch) by ring.
  replace (np.deg2rad ps - - np.deg2rad roll)
    with (np.deg2rad ps + np.deg2rad roll) by ring.
  replace (np.deg2rad ps + - np.deg2rad roll)
    with (np.deg2rad ps - np.deg2rad roll) by ring.
  split; reflexivity.
Qed.

(** X12: changing the sign of all four inputs at once changes nothing:
    the same tuple is returned and the same text printed. *)
Theorem all_signs_invisible (fa ps pitch roll : R) :
  angle_from_vertical (- fa) (- ps) (- pitch) (- roll)
  = angle_from_vertical fa ps pitch roll.
Proof.
  unfold angle_from_vertical.
  rewrite !deg2rad_opp, !np_cos_opp.
  replace (- np.deg2rad fa - - np.deg2rad pitch)
    with (- (np.deg2rad fa - np.deg2rad pitch)) by ring.
  replace (- np.deg2rad fa + - np.deg2rad pitch)
    with (- (np.deg2rad fa + np.deg2rad pitch)) by ring.
  replace (- np.deg2rad ps - - np.deg2rad roll)
    with (- (np.deg2rad ps - np.deg2rad roll)) by ring.
  replace (- np.deg2rad ps + - np.deg2rad roll)
    with (- (np.deg2rad ps + np.deg2rad roll)) by ring.
  rewrite !np_cos_opp.
  reflexivity.
Qed.

(** ** What the printed text can contain *)

Lemma round_half_even_le (x : R) (n : Z) :
  x <= IZR n -> (round_half_even x <= n)%Z.
Proof.
  intros Hx; unfold round_half_even.
  pose proof (base_Int_part x) as [Hle Hgt].
  assert (Hf : (Int_part x <= n)%Z) by (apply le_IZR; lra).
  destruct (Rlt_dec (x - IZR (Int_part x)) (1 / 2)) as [Hlt | Hge];
    [exact Hf |].
  assert (Hf' : (Int_part x < n)%Z) by (apply lt_IZR; lra).
  destruct (Rlt_dec (1 / 2) (x - IZR (Int_part x))); [lia |].
  destruct (Z.even (Int_part x)); lia.
Qed.

Lemma format_3f_reads_in_range (x : npfloat) :
  in_interval 0 180 x ->
  exists n : Z, read_3f (format_3f x) = Some n /\ (0 <= n <= 180000)%Z.
Proof.
  destruct x as [t |]; cbn [in_interval]; [| tauto].
  intros [H0 H180].
  exists (round_half_even (t * 1000)).
  rewrite format_3f_nonneg by exact H0.
  assert (Hn : (0 <= round_half_even (t * 1000))%Z)
    by (apply round_half_even_nonneg; lra).
  split; [apply read_thousandths, Hn |].
  split; [exact Hn | apply round_half_even_le; lra].
Qed.

(** X9: each of the four printed numbers reads back as a count of
    thousandths between 0 and 180000: the text never shows nan, a
    minus sign or a value above 180.000. *)
Theorem printed_numbers_in_range (fa ps pitch roll : R) :
  exists n1 n2 n3 n4 : Z,
    read_3f (format_3f (theta_1 fa ps pitch roll)) = Some n1 /\
    read_3f (format_3f (theta_2 fa ps pitch roll)) = Some n2 /\
    read_3f (format_3f (theta_3 fa ps pitch roll)) = Some n3 /\
    read_3f (format_3f (theta_4 fa ps pitch roll)) = Some n4 /\
    (0 <= n1 <= 180000)%Z /\ (0 <= n2 <= 180000)%Z /\
    (0 <= n3 <= 180000)%Z /\ (0 <= n4 <= 180000)%Z /\
    stdout (angle_from_vertical fa ps pitch roll)
    = ("fore angle: " ++ thousandths n1 ++ newline ++
       "port angle: " ++ thousandths n2 ++ newline ++
       "aft angle: " ++ thousandths n3 ++ newline ++
       "stbd angle: " ++ thousandths n4 ++ newline)%string.
Proof.
  destruct (thetas_in_half_turn fa ps pitch roll) as (H1 & H2 & H3 & H4).
  rewrite stdout_thetas.
  destruct (theta_1 fa ps pitch roll) as [t1 |]; [| contradiction].
  destruct (theta_2 fa ps pitch roll) as [t2 |]; [| contradiction].
  destruct (theta_3 fa ps pitch roll) as [t3 |]; [| contradiction].
  destruct (theta_4 fa ps pitch roll) as [t4 |]; [| contradiction].
  cbn [in_interval] in H1, H2, H3, H4.
  exists (round_half_even (t1 * 1000)), (round_half_even (t2 * 1000)),
    (round_half_even (t3 * 1000)), (round_half_even (t4 * 1000)).
  rewrite !format_3f_nonneg by lra.
  assert (Hr : forall t, 0 <= t <= 180 ->
                 (0 <= round_half_even (t * 1000) <= 180000)%Z).
  { intros t [Ht0 Ht1]; split;
      [apply round_half_even_nonneg | apply round_half_even_le]; lra. }
  pose proof (Hr t1 H1) as R1; pose proof (Hr t2 H2) as R2.
  pose proof (Hr t3 H3) as R3; pose proof (Hr t4 H4) as R4.
  rewrite !read_thousandths by lia.
  repeat (split; [first [reflexivity | assumption] |]).
  reflexivity.
Qed.

Lemma line_feeds_app (a b : string) :
  line_feeds (a ++ b) = (line_feeds a + line_feeds b)%nat.
Proof.
  induction a as [| c a IH]; cbn [append line_feeds]; [reflexivity |].
  destruct (Ascii.eqb c (ascii_of_nat 10)); rewrite IH; reflexivity.
Qed.

Lemma digit_not_line_feed (c : ascii) :
  is_digit c = true -> Ascii.eqb c (ascii_of_nat 10) = false.
Proof.
  intros Hc; destruct (Ascii.eqb_spec c (ascii_of_nat 10)) as [-> | _];
    [discriminate Hc | reflexivity].
Qed.

Lemma point_not_line_feed (c : ascii) :
  Ascii.eqb c "." = true -> Ascii.eqb c (ascii_of_nat 10) = false.
Proof.
  intros Hc; apply Ascii.eqb_eq in Hc; subst c; reflexivity.
Qed.

(** A text that reads as a number holds no line feed. *)
Lemma read_fixed3_one_line (s : string) :
  forall (acc n : Z), read_fixed3 s acc = Some n -> line_feeds s = O.
Proof.
  induction s as [| c s IH]; intros acc n; cbn [read_fixed3 line_feeds];
    [discriminate |].
  destruct (Ascii.eqb c ".") eqn:Hpoint.
  - rewrite (point_not_line_feed c Hpoint).
    destruct s as [| a [| b [| d [| e s]]]]; try discriminate.
    destruct (is_digit a) eqn:Ha; [| discriminate].
    destruct (is_digit b) eqn:Hb; [| discriminate].
    destruct (is_digit d) eqn:Hd; [| discriminate].
    intros _; cbn [line_feeds].
    rewrite (digit_not_line_feed a Ha), (digit_not_line_feed b Hb),
      (digit_not_line_feed d Hd).
    reflexivity.
  - destruct (is_digit c) eqn:Hc; [| discriminate].
    rewrite (digit_not_line_feed c Hc).
    apply IH.
Qed.

(** X10: whatever the inputs, the printed text holds exactly four
    line feeds, one at the end of each labelled line. *)
Theorem prints_exactly_four_lines (fa ps pitch roll : R) :
  line_feeds (stdout (angle_from_vertical fa ps pitch roll)) = 4%nat.
Proof.
  destruct (thetas_in_half_turn fa ps pitch roll) as (H1 & H2 & H3 & H4).
  destruct (format_3f_reads_in_range _ H1) as (n1 & R1 & _).
  destruct (format_3f_reads_in_range _ H2) as (n2 & R2 & _).
  destruct (format_3f_reads_in_range _ H3) as (n3 & R3 & _).
  destruct (format_3f_reads_in_range _ H4) as (n4 & R4 & _).
  rewrite stdout_thetas, !line_feeds_app.
  rewrite (read_fixed3_one_line _ _ _ R1), (read_fixed3_one_line _ _ _ R2),
    (read_fixed3_one_line _ _ _ R3), (read_fixed3_one_line _ _ _ R4).
  reflexivity.
Qed.
